(** * git_attest.fetch_attestation: a shallow embedding

    The module [fetch_attestation.py] looks one attestation up at a GraphQL
    endpoint and prints it.  The embedding keeps the shape of the Python:

    - values decoded from JSON are Python objects ([Py.value]), with the
      dynamic operations the module applies to them ([.get], [[]], truth);
    - a raised exception is the [Raise] branch of a [result];
    - the two effects of the module, [requests.post] and [print], are the
      nodes of a program tree ([prog]) that [run] executes against a network,
      recording every call in a trace;
    - the module reads one module-level name, [EAS_GQL], when it is called:
      programs run in a store of the module's globals;
    - [json] decoding of a response body and [argparse] are library code, and
      enter as section variables: every theorem holds for any decoder and any
      command-line reader. *)

From Stdlib Require Import ZArith List String Ascii Bool Lia.
From Stdlib Require Import Floats.SpecFloat.
Import ListNotations.
Local Open Scope string_scope.
Local Open Scope Z_scope.
Local Set Warnings "-register-all".

(** ** Exceptions and results *)

(** The exceptions that can leave [fetch_attestation] or [main]. *)
Inductive exn : Type :=
| RequestException (why : string)  (* requests.post itself failed: connection, timeout *)
| HTTPError (status : Z)           (* Response.raise_for_status *)
| JSONDecodeError                  (* Response.json: the body is rejected *)
| RecursionError                   (* Response.json: nesting beyond the decoder's stack *)
| ValueError                       (* Response.json: an integer beyond the digit limit *)
| AttributeError                   (* .get on an object that has none *)
| KeyError (key : string)          (* d[key] on a dict without key *)
| TypeError                        (* x[key] on a non-dict *)
| SystemExit (code : Z).           (* argparse leaving the process *)

Inductive result (A : Type) : Type :=
| Return (a : A)
| Raise (e : exn).
Arguments Return {A} a.
Arguments Raise {A} e.

Definition result_bind {A B} (r : result A) (f : A -> result B) : result B :=
  match r with
  | Return a => f a
  | Raise e => Raise e
  end.

(** ** Python values *)

Module Py.

(** What [json] decoding can produce: [None], [bool], [int], [float],
    [str], [list] and [dict] with string keys.  A dict is kept as its list
    of items; [dict_get] reads the first item with the key. *)
Inductive value : Type :=
| None_
| Bool (b : bool)
| Int (n : Z)
| Float (f : spec_float)
| Str (s : string)
| List (l : list value)
| Dict (items : list (string * value)).

Fixpoint dict_get (key : string) (items : list (string * value)) : option value :=
  match items with
  | [] => None
  | (k, v) :: rest => if String.eqb k key then Some v else dict_get key rest
  end.

(** [d[key] = v]: a key already there keeps its place and takes the new
    value, a new key goes last. *)
Fixpoint dict_set (key : string) (v : value) (items : list (string * value))
  : list (string * value) :=
  match items with
  | [] => [(key, v)]
  | (k, w) :: rest =>
      if String.eqb k key then (k, v) :: rest else (k, w) :: dict_set key v rest
  end.

(** Truth value testing, [bool(x)]: [None], [False], zero of either
    numeric type and the empty string, list and dict are false. *)
Definition truthy (x : value) : bool :=
  match x with
  | None_ => false
  | Bool b => b
  | Int n => negb (n =? 0)
  | Float (S754_zero _) => false
  | Float _ => true
  | Str s => negb (String.eqb s "")
  | List l => match l with [] => false | _ :: _ => true end
  | Dict items => match items with [] => false | _ :: _ => true end
  end.

(** [x.get(key, default)]: only a dict has the method. *)
Definition get (x : value) (key : string) (default : value) : result value :=
  match x with
  | Dict items =>
      match dict_get key items with
      | Some v => Return v
      | None => Return default
      end
  | _ => Raise AttributeError
  end.

(** [x[key]] with a string key: [KeyError] on a dict without the key,
    [TypeError] on every other kind of value. *)
Definition getitem (x : value) (key : string) : result value :=
  match x with
  | Dict items =>
      match dict_get key items with
      | Some v => Return v
      | None => Raise (KeyError key)
      end
  | _ => Raise TypeError
  end.

End Py.

(** ** The requests library *)

Module Requests.

(** The keyword arguments of one [requests.post] call.  [headers] and [auth]
    are [None] when the caller passes neither. *)
Record Request : Type := mkRequest {
  url : string;
  json : Py.value;
  timeout : Z;
  headers : option (list (string * string));
  auth : option (string * string)
}.

Record Response : Type := mkResponse {
  status_code : Z;
  text : string
}.

(** [Response.raise_for_status]: [HTTPError] for a client error (4xx) or a
    server error (5xx) status, nothing for any other status. *)
Definition raise_for_status (r : Response) : result unit :=
  if (400 <=? status_code r) && (status_code r <? 600)
  then Raise (HTTPError (status_code r))
  else Return tt.

(** [Response.json]: the body through the decoder.  The decoder returns a
    value, also for the texts it takes beyond JSON ([NaN], [Infinity]), or
    raises: [JSONDecodeError] for a text it rejects, [RecursionError] and
    [ValueError] at its limits.  Nothing is caught here. *)
Definition Response_json (loads : string -> result Py.value) (r : Response)
  : result Py.value :=
  loads (text r).

(** *** What one [requests.post] call sends

    [requests.post] leaves [allow_redirects] at its default, so the session
    follows redirects: a reply with a status 301, 302, 303, 307 or 308 and
    a [Location] header makes it send a further request, up to 30 times.
    303 and 302 turn the method into GET, and so does 301 for a POST; only
    307 and 308 keep the method and the body. *)

Inductive method : Type := GET | POST.

(** One HTTP request on the wire. *)
Record message : Type := mkMessage {
  m_method : method;
  m_url : string;
  m_body : option Py.value;
  m_timeout : Z
}.

(** One HTTP reply; [location] is the URL its [Location] header resolves
    to, when it has one. *)
Record reply : Type := mkReply {
  status : Z;
  location : option string;
  body : string
}.

(** A server answers a message, or the exchange fails. *)
Definition server : Type := message -> result reply.

Definition redirect_target (rp : reply) : option string :=
  if existsb (Z.eqb (status rp)) [301; 302; 303; 307; 308]
  then location rp
  else None.

Definition rebuild_method (m : method) (st : Z) : method :=
  if st =? 303 then GET
  else if st =? 302 then GET
  else if st =? 301 then match m with POST => GET | other => other end
  else m.

Definition redirected (msg : message) (rp : reply) (target : string)
  : message :=
  {| m_method := rebuild_method (m_method msg) (status rp);
     m_url := target;
     m_body := if (status rp =? 307) || (status rp =? 308)
               then m_body msg else None;
     m_timeout := m_timeout msg |}.

(** The messages sent, in order, and the response handed to the caller. *)
Fixpoint send (redirects_left : nat) (srv : server) (msg : message)
  : list message * result Response :=
  match srv msg with
  | Raise e => ([msg], Raise e)
  | Return rp =>
      match redirect_target rp with
      | None => ([msg], Return (mkResponse (status rp) (body rp)))
      | Some target =>
          match redirects_left with
          | O => ([msg], Raise (RequestException "TooManyRedirects"))
          | S n =>
              let (sent, o) := send n srv (redirected msg rp target) in
              (msg :: sent, o)
          end
      end
  end.

Definition first_message (rq : Request) : message :=
  {| m_method := POST; m_url := url rq; m_body := Some (json rq);
     m_timeout := timeout rq |}.

Definition post_over (srv : server) (rq : Request)
  : list message * result Response :=
  send 30 srv (first_message rq).


End Requests.

(** ** Programs and their runs *)

Record Attestation : Type := mkAttestation {
  uid : Py.value;
  txid : Py.value;
  schema : Py.value;
  attester : Py.value;
  recipient : Py.value
}.

Inductive stream : Type := Stdout | Stderr.

(** What a [print] call is given: a literal line, or a record, which
    [print] renders with the dataclass [repr]. *)
Inductive printed : Type :=
| Line (s : string)
| ReprOf (a : Attestation).

Definition EAS_GQL : string := "https://base-sepolia.easscan.org/graphql".

(** The module-level variables of the module: there is one, [EAS_GQL].  It
    is bound when the module is loaded, and like every module attribute it
    can be bound again by any code of the process. *)
Record globals : Type := mkGlobals { g_EAS_GQL : string }.

Definition module_globals : globals := {| g_EAS_GQL := EAS_GQL |}.

(** A program is a tree of the module's two effects, and of reads and
    writes of the globals. *)
Inductive prog (A : Type) : Type :=
| Ret (a : A)
| Throw (e : exn)
| Load (k : globals -> prog A)
| Store (g : globals) (k : prog A)
| Post (rq : Requests.Request) (k : Requests.Response -> prog A)
| Print (to : stream) (what : printed) (k : prog A).
Arguments Ret {A} a.
Arguments Throw {A} e.
Arguments Load {A} k.
Arguments Store {A} g k.
Arguments Post {A} rq k.
Arguments Print {A} to what k.

Fixpoint bind {A B} (p : prog A) (f : A -> prog B) : prog B :=
  match p with
  | Ret a => f a
  | Throw e => Throw e
  | Load k => Load (fun g => bind (k g) f)
  | Store g k => Store g (bind k f)
  | Post rq k => Post rq (fun r => bind (k r) f)
  | Print to what k => Print to what (bind k f)
  end.

Definition lift {A} (r : result A) : prog A :=
  match r with
  | Return a => Ret a
  | Raise e => Throw e
  end.

Declare Scope prog_scope.
Delimit Scope prog_scope with prog.
Notation "x <- p ;; q" := (bind p (fun x => q))
  (at level 100, p at next level, right associativity) : prog_scope.
Notation "p ;; q" := (bind p (fun _ => q))
  (at level 100, right associativity) : prog_scope.

(** The calls a run makes, in order. *)
Inductive event : Type :=
| Posted (rq : Requests.Request)
| Printed (to : stream) (what : printed).

(** The network answers a request with a response, or [requests.post]
    raises. *)
Definition network : Type := Requests.Request -> result Requests.Response.

(** One execution, from a store of globals: the calls made, the outcome,
    and the store left behind. *)
Fixpoint exec {A} (net : network) (p : prog A) (g : globals)
  : list event * result A * globals :=
  match p with
  | Ret a => ([], Return a, g)
  | Throw e => ([], Raise e, g)
  | Load k => exec net (k g) g
  | Store g' k => exec net k g'
  | Post rq k =>
      match net rq with
      | Return r =>
          let '(t, o, g') := exec net (k r) g in (Posted rq :: t, o, g')
      | Raise e => ([Posted rq], Raise e, g)
      end
  | Print to what k =>
      let '(t, o, g') := exec net k g in (Printed to what :: t, o, g')
  end.

(** A run in the globals as the module binds them. *)
Definition run {A} (net : network) (p : prog A) : list event * result A :=
  fst (exec net p module_globals).

Definition trace_of {A} (x : list event * result A) : list event := fst x.
Definition outcome_of {A} (x : list event * result A) : result A := snd x.

(** ** The module *)

(** The GraphQL document, as the triple-quoted literal has it. *)
Definition QUERY : string := "
        query ($id: String!) {
          attestation(where: { id: $id }) {
            id
            txid
            schemaId
            attester
            recipient
          }
        }
        ".

(** [argparse]: the namespace of a command line, or the parser leaving the
    process after a message (usage and error on stderr with code 2, help on
    stdout with code 0). *)
Record Namespace : Type := mkNamespace { ns_uid : string }.

Inductive parsed : Type :=
| Parsed (args : Namespace)
| Exits (to : stream) (message : string) (code : Z).

Section Source.

Variable json_loads : string -> result Py.value.
Variable parse_args : list string -> parsed.

Local Open Scope prog_scope.

Definition post (u : string) (body : Py.value) (seconds : Z)
  : prog Requests.Response :=
  Post (Requests.mkRequest u body seconds None None) Ret.

Definition print (to : stream) (what : printed) : prog unit :=
  Print to what (Ret tt).

(** The value a module-level name has when the statement runs. *)
Definition load {B} (name : globals -> B) : prog B :=
  Load (fun g => Ret (name g)).

Definition fetch_attestation (uid : string) : prog (option Attestation) :=
  let query := Py.Dict [("query", Py.Str QUERY);
                        ("variables", Py.Dict [("id", Py.Str uid)])] in
  endpoint <- load g_EAS_GQL ;;
  r <- post endpoint query 20 ;;
  _ <- lift (Requests.raise_for_status r) ;;
  data <- lift (Requests.Response_json json_loads r) ;;
  d <- lift (Py.get data "data" (Py.Dict [])) ;;
  att <- lift (Py.get d "attestation" Py.None_) ;;
  if negb (Py.truthy att) then Ret None
  else
    a_uid <- lift (Py.getitem att "id") ;;
    a_txid <- lift (Py.get att "txid" Py.None_) ;;
    a_schema <- lift (Py.get att "schemaId" Py.None_) ;;
    a_attester <- lift (Py.get att "attester" Py.None_) ;;
    a_recipient <- lift (Py.get att "recipient" Py.None_) ;;
    Ret (Some (mkAttestation a_uid a_txid a_schema a_attester a_recipient)).

(** [if not att] on the fetcher's result: [None] is false, and a dataclass
    instance, which defines neither [__bool__] nor [__len__], is true. *)
Definition main (argv : list string) : prog Z :=
  match parse_args argv with
  | Exits to message code => print to (Line message) ;; Throw (SystemExit code)
  | Parsed args =>
      att <- fetch_attestation (ns_uid args) ;;
      match att with
      | None => print Stderr (Line "Not found") ;; Ret 2
      | Some a => print Stdout (ReprOf a) ;; Ret 0
      end
  end.

(** The module body under [if __name__ == "__main__"]: run as a script, the
    module hands the arguments after the program name to [main] and leaves
    with its return value; imported, it does nothing. *)
Definition script (name : string) (sys_argv : list string) : prog unit :=
  if String.eqb name "__main__"
  then code <- main (List.tl sys_argv) ;; Throw (SystemExit code)
  else Ret tt.

End Source.

(** ** A decoder and a command-line reader to run the module with

    The theorems below quantify over the decoder and the reader.  To run the
    module on concrete inputs they are instantiated with the two functions
    of this part. *)

Module PlainJson.

(** A decoder for a plain fragment of what [json.loads] reads: ASCII texts
    whose strings have no escape sequence and whose numbers are integers,
    or one of the three constants [NaN], [Infinity] and [-Infinity], which
    [json.loads] takes although they are no JSON.  On the fragment it
    builds the value [json.loads] builds (a repeated key keeps its last
    value); any other text it rejects. *)

Definition dquote : ascii := "034"%char.

Definition is_ws (c : ascii) : bool :=
  match c with
  | " "%char | "009"%char | "010"%char | "013"%char => true
  | _ => false
  end.

Definition digit_of (c : ascii) : option Z :=
  let n := Z.of_N (N_of_ascii c) in
  if (48 <=? n) && (n <=? 57) then Some (n - 48) else None.

Definition plain_char (c : ascii) : bool :=
  let n := Z.of_N (N_of_ascii c) in
  (32 <=? n) && (n <? 128) && negb (Ascii.eqb c dquote) && negb (Ascii.eqb c "\").

Fixpoint skip_ws (s : string) : string :=
  match s with
  | String c rest => if is_ws c then skip_ws rest else s
  | EmptyString => s
  end.

Fixpoint strip_prefix (p s : string) : option string :=
  match p, s with
  | EmptyString, _ => Some s
  | String a p', String b s' => if Ascii.eqb a b then strip_prefix p' s' else None
  | String _ _, EmptyString => None
  end.

(** The characters up to the closing quote, and the text after it. *)
Fixpoint read_string (s : string) : option (string * string) :=
  match s with
  | EmptyString => None
  | String c rest =>
      if Ascii.eqb c dquote then Some (EmptyString, rest)
      else if plain_char c then
        match read_string rest with
        | Some (body, after) => Some (String c body, after)
        | None => None
        end
      else None
  end.

Fixpoint read_digits (acc : Z) (s : string) : Z * string :=
  match s with
  | String c rest =>
      match digit_of c with
      | Some d => read_digits (10 * acc + d) rest
      | None => (acc, s)
      end
  | EmptyString => (acc, s)
  end.

(** [0] or a digit string without leading zero; a fraction or an exponent
    after it leaves the fragment. *)
Definition read_nat (s : string) : option (Z * string) :=
  match s with
  | String c rest =>
      match digit_of c with
      | Some d =>
          let (n, after) := if d =? 0 then (0, rest) else read_digits d rest in
          match after with
          | String "." _ | String "e" _ | String "E" _ => None
          | _ => Some (n, after)
          end
      | None => None
      end
  | EmptyString => None
  end.

Definition read_int (s : string) : option (Z * string) :=
  match s with
  | String "-" rest =>
      match read_nat rest with
      | Some (n, after) => Some (- n, after)
      | None => None
      end
  | _ => read_nat s
  end.

Fixpoint read_value (fuel : nat) (s : string) : option (Py.value * string) :=
  match fuel with
  | O => None
  | S fuel' =>
      match skip_ws s with
      | EmptyString => None
      | String c rest as s' =>
          if Ascii.eqb c "{" then
            match skip_ws rest with
            | String "}" after => Some (Py.Dict [], after)
            | _ => read_members fuel' [] rest
            end
          else if Ascii.eqb c "[" then
            match skip_ws rest with
            | String "]" after => Some (Py.List [], after)
            | _ => read_elements fuel' [] rest
            end
          else if Ascii.eqb c dquote then
            match read_string rest with
            | Some (body, after) => Some (Py.Str body, after)
            | None => None
            end
          else if Ascii.eqb c "n" then
            option_map (pair Py.None_) (strip_prefix "null" s')
          else if Ascii.eqb c "t" then
            option_map (pair (Py.Bool true)) (strip_prefix "true" s')
          else if Ascii.eqb c "f" then
            option_map (pair (Py.Bool false)) (strip_prefix "false" s')
          else if Ascii.eqb c "N" then
            option_map (pair (Py.Float S754_nan)) (strip_prefix "NaN" s')
          else if Ascii.eqb c "I" then
            option_map (pair (Py.Float (S754_infinity false)))
              (strip_prefix "Infinity" s')
          else
            match strip_prefix "-Infinity" s' with
            | Some after => Some (Py.Float (S754_infinity true), after)
            | None =>
                match read_int s' with
                | Some (n, after) => Some (Py.Int n, after)
                | None => None
                end
            end
      end
  end
with read_members (fuel : nat) (acc : list (string * Py.value)) (s : string)
  : option (Py.value * string) :=
  match fuel with
  | O => None
  | S fuel' =>
      match skip_ws s with
      | String c rest =>
          if Ascii.eqb c dquote then
            match read_string rest with
            | Some (key, after_key) =>
                match skip_ws after_key with
                | String ":" after_colon =>
                    match read_value fuel' after_colon with
                    | Some (v, after_value) =>
                        let acc' := Py.dict_set key v acc in
                        match skip_ws after_value with
                        | String "," more => read_members fuel' acc' more
                        | String "}" after => Some (Py.Dict acc', after)
                        | _ => None
                        end
                    | None => None
                    end
                | _ => None
                end
            | None => None
            end
          else None
      | EmptyString => None
      end
  end
with read_elements (fuel : nat) (acc : list Py.value) (s : string)
  : option (Py.value * string) :=
  match fuel with
  | O => None
  | S fuel' =>
      match read_value fuel' s with
      | Some (v, after_value) =>
          match skip_ws after_value with
          | String "," more => read_elements fuel' (acc ++ [v]) more
          | String "]" after => Some (Py.List (acc ++ [v]), after)
          | _ => None
          end
      | None => None
      end
  end.

(** One value, with nothing but white space after it.  Every call of the
    readers consumes a character, so the length of the text bounds them. *)
Definition loads (s : string) : option Py.value :=
  match read_value (S (String.length s)) s with
  | Some (v, after) =>
      match skip_ws after with
      | EmptyString => Some v
      | String _ _ => None
      end
  | None => None
  end.

(** The decoder as [Response.json] uses it: a rejected text raises. *)
Definition decode (s : string) : result Py.value :=
  match loads s with
  | Some v => Return v
  | None => Raise JSONDecodeError
  end.

(** JSON texts are written below with ['] where the text has the double
    quote. *)
Definition requote (s : string) : string :=
  string_of_list_ascii
    (List.map (fun c => if Ascii.eqb c "'" then dquote else c)
       (list_ascii_of_string s)).

End PlainJson.

Module Rfc8259.

(** A recogniser for the JSON grammar of RFC 8259: white space, the three
    literal names, numbers with fraction and exponent, strings with their
    escapes, arrays and objects.  Characters above 127 inside strings are
    taken as UTF-8 text without a check of the encoding, so the recogniser
    can only err by accepting: a text it refuses is no JSON. *)

Import PlainJson.

Definition code (c : ascii) : Z := Z.of_N (N_of_ascii c).

Definition is_digit (c : ascii) : bool := (48 <=? code c) && (code c <=? 57).

Definition is_hex (c : ascii) : bool :=
  is_digit c
  || ((97 <=? code c) && (code c <=? 102))
  || ((65 <=? code c) && (code c <=? 70)).

Definition is_escape (c : ascii) : bool :=
  existsb (Ascii.eqb c)
    [dquote; "\"%char; "/"%char; "b"%char; "f"%char; "n"%char; "r"%char;
     "t"%char].

(** After the opening quote: the text after the closing quote. *)
Fixpoint string_rest (s : string) : option string :=
  match s with
  | EmptyString => None
  | String c rest =>
      if Ascii.eqb c dquote then Some rest
      else if Ascii.eqb c "\" then
        match rest with
        | String e rest1 =>
            if is_escape e then string_rest rest1
            else if Ascii.eqb e "u" then
              match rest1 with
              | String h1 (String h2 (String h3 (String h4 rest2))) =>
                  if is_hex h1 && is_hex h2 && is_hex h3 && is_hex h4
                  then string_rest rest2
                  else None
              | _ => None
              end
            else None
        | EmptyString => None
        end
      else if code c <? 32 then None
      else string_rest rest
  end.

Fixpoint skip_digits (s : string) : string :=
  match s with
  | String c rest => if is_digit c then skip_digits rest else s
  | EmptyString => s
  end.

Definition digits1 (s : string) : option string :=
  match s with
  | String c rest => if is_digit c then Some (skip_digits rest) else None
  | EmptyString => None
  end.

Definition int_part (s : string) : option string :=
  match s with
  | String c rest =>
      if Ascii.eqb c "0" then Some rest
      else if is_digit c then Some (skip_digits rest)
      else None
  | EmptyString => None
  end.

Definition frac_part (s : string) : option string :=
  match s with
  | String "." rest => digits1 rest
  | _ => Some s
  end.

Definition exp_part (s : string) : option string :=
  match s with
  | String c rest =>
      if Ascii.eqb c "e" || Ascii.eqb c "E" then
        match rest with
        | String sign rest1 =>
            if Ascii.eqb sign "+" || Ascii.eqb sign "-"
            then digits1 rest1 else digits1 rest
        | EmptyString => None
        end
      else Some s
  | EmptyString => Some s
  end.

Definition number (s : string) : option string :=
  let unsigned := match s with String "-" rest => rest | _ => s end in
  match int_part unsigned with
  | Some after_int =>
      match frac_part after_int with
      | Some after_frac => exp_part after_frac
      | None => None
      end
  | None => None
  end.

Fixpoint value (fuel : nat) (s : string) : option string :=
  match fuel with
  | O => None
  | S fuel' =>
      match skip_ws s with
      | EmptyString => None
      | String c rest as s' =>
          if Ascii.eqb c "{" then
            match skip_ws rest with
            | String "}" after => Some after
            | _ => members fuel' rest
            end
          else if Ascii.eqb c "[" then
            match skip_ws rest with
            | String "]" after => Some after
            | _ => elements fuel' rest
            end
          else if Ascii.eqb c dquote then string_rest rest
          else if Ascii.eqb c "n" then strip_prefix "null" s'
          else if Ascii.eqb c "t" then strip_prefix "true" s'
          else if Ascii.eqb c "f" then strip_prefix "false" s'
          else number s'
      end
  end
with members (fuel : nat) (s : string) : option string :=
  match fuel with
  | O => None
  | S fuel' =>
      match skip_ws s with
      | String c rest =>
          if Ascii.eqb c dquote then
            match string_rest rest with
            | Some after_key =>
                match skip_ws after_key with
                | String ":" after_colon =>
                    match value fuel' after_colon with
                    | Some after_value =>
                        match skip_ws after_value with
                        | String "," more => members fuel' more
                        | String "}" after => Some after
                        | _ => None
                        end
                    | None => None
                    end
                | _ => None
                end
            | None => None
            end
          else None
      | EmptyString => None
      end
  end
with elements (fuel : nat) (s : string) : option string :=
  match fuel with
  | O => None
  | S fuel' =>
      match value fuel' s with
      | Some after_value =>
          match skip_ws after_value with
          | String "," more => elements fuel' more
          | String "]" after => Some after
          | _ => None
          end
      | None => None
      end
  end.

(** One value between white space, and nothing else.  Every call consumes
    a character, so the length of the text bounds the calls. *)
Definition valid (s : string) : bool :=
  match value (S (String.length s)) s with
  | Some after =>
      match skip_ws after with
      | EmptyString => true
      | String _ _ => false
      end
  | None => false
  end.

End Rfc8259.

Module PlainCli.

(** A reader for the plain spelling of the one option, [--uid VALUE] with a
    value that does not start with a dash.  [argparse] takes further
    spellings ([--uid=VALUE], abbreviations, [-h]); this reader answers all
    of them as [argparse] answers a command line it cannot read: usage on
    stderr, exit code 2. *)

Definition usage : string := "usage: fetch_attestation.py [-h] --uid UID".

Definition starts_with_dash (s : string) : bool :=
  match s with
  | String "-" _ => true
  | _ => false
  end.

Definition parse_args (argv : list string) : parsed :=
  match argv with
  | [flag; v] =>
      if String.eqb flag "--uid" && negb (starts_with_dash v)
      then Parsed (mkNamespace v)
      else Exits Stderr usage 2
  | _ => Exits Stderr usage 2
  end.

End PlainCli.

(** Networks to run against: a server that answers every request with one
    response, and a host that cannot be reached. *)
Definition serve (r : Requests.Response) : network := fun _ => Return r.

Definition unreachable : network :=
  fun _ => Raise (RequestException "ConnectionError").


(** ** Vocabulary of the properties *)

(** The request [fetch_attestation] makes for an identifier when
    [EAS_GQL] is bound to [endpoint]. *)
Definition request_to (endpoint uid : string) : Requests.Request :=
  {| Requests.url := endpoint;
     Requests.json := Py.Dict [("query", Py.Str QUERY);
                               ("variables", Py.Dict [("id", Py.Str uid)])];
     Requests.timeout := 20;
     Requests.headers := None;
     Requests.auth := None |}.



Definition sent_for (srv : Requests.server) (ev : event)
  : list Requests.message :=
  match ev with
  | Posted rq => fst (Requests.post_over srv rq)
  | Printed _ _ => []
  end.

Definition sent (srv : Requests.server) (t : list event)
  : list Requests.message :=
  List.flat_map (sent_for srv) t.

(** The one request [fetch_attestation] makes for an identifier. *)
Definition fetch_request (uid : string) : Requests.Request :=
  {| Requests.url := EAS_GQL;
     Requests.json := Py.Dict [("query", Py.Str QUERY);
                               ("variables", Py.Dict [("id", Py.Str uid)])];
     Requests.timeout := 20;
     Requests.headers := None;
     Requests.auth := None |}.

(** [d.get(key)] on the items of a dict. *)
Definition member_or_none (key : string) (items : list (string * Py.value))
  : Py.value :=
  match Py.dict_get key items with
  | Some v => v
  | None => Py.None_
  end.

(** The record of an attestation object that has an [id]. *)
Definition record_of (id : Py.value) (att : list (string * Py.value))
  : Attestation :=
  {| uid := id;
     txid := member_or_none "txid" att;
     schema := member_or_none "schemaId" att;
     attester := member_or_none "attester" att;
     recipient := member_or_none "recipient" att |}.

(** A decoded body of the expected shape with no attestation to show: it is
    an object without [data], or its [data] is an object in which
    [attestation] is missing or null. *)
Definition attestation_absent_or_null (body : Py.value) : bool :=
  match body with
  | Py.Dict top =>
      match Py.dict_get "data" top with
      | None => true
      | Some (Py.Dict d) =>
          match Py.dict_get "attestation" d with
          | None | Some Py.None_ => true
          | Some _ => false
          end
      | Some _ => false
      end
  | _ => false
  end.

(** The value at [data.attestation] in a decoded body, [None] when there is
    none: no [data] object to look in, or no [attestation] in it. *)
Definition attestation_of (body : Py.value) : option Py.value :=
  match body with
  | Py.Dict top =>
      match Py.dict_get "data" top with
      | Some (Py.Dict d) => Py.dict_get "attestation" d
      | _ => None
      end
  | _ => None
  end.

(** What [fetch_attestation] makes of a response, as one expression over
    results; [run_fetch_attestation] shows that the program computes it. *)
Section Answer.

Variable json_loads : string -> result Py.value.

Definition build (att : Py.value) : result (option Attestation) :=
  result_bind (Py.getitem att "id") (fun a_uid =>
  result_bind (Py.get att "txid" Py.None_) (fun a_txid =>
  result_bind (Py.get att "schemaId" Py.None_) (fun a_schema =>
  result_bind (Py.get att "attester" Py.None_) (fun a_attester =>
  result_bind (Py.get att "recipient" Py.None_) (fun a_recipient =>
  Return (Some (mkAttestation a_uid a_txid a_schema a_attester a_recipient))))))).

Definition answer (r : Requests.Response) : result (option Attestation) :=
  result_bind (Requests.raise_for_status r) (fun _ =>
  result_bind (Requests.Response_json json_loads r) (fun data =>
  result_bind (Py.get data "data" (Py.Dict [])) (fun d =>
  result_bind (Py.get d "attestation" Py.None_) (fun att =>
  if negb (Py.truthy att) then Return None else build att)))).

End Answer.

(** The bodies of the three end-to-end examples, and of some answers a
    server can also give. *)
Module Bodies.

Import PlainJson.

Definition full : string := requote
  "{'data':{'attestation':{'id':'0xabc','txid':'0x111','schemaId':'0xschema','attester':'0xaa','recipient':'0xbb'}}}".

Definition null_attestation : string := requote
  "{'data':{'attestation':null}}".

Definition no_txid_no_recipient : string := requote
  "{'data':{'attestation':{'id':'0xabc','schemaId':'0xschema','attester':'0xaa'}}}".

Definition no_data : string := requote "{'errors':[{'message':'boom'}]}".

Definition empty_attestation : string := requote
  "{'data':{'attestation':{}}}".

Definition no_id : string := requote
  "{'data':{'attestation':{'schemaId':'0xschema','attester':'0xaa'}}}".

Definition only_id : string := requote
  "{'data':{'attestation':{'id':'0xabc'}}}".

Definition null_data : string := requote
  "{'data':null,'errors':[{'message':'boom'}]}".

Definition only_optional : string := requote
  "{'data':{'attestation':{'txid':'0x111','recipient':'0xbb'}}}".

Definition empty_list : string := "[]".

Definition string_attestation : string := requote
  "{'data':{'attestation':'0xabc'}}".

Definition nan_id : string := requote
  "{'data':{'attestation':{'id':NaN}}}".

Definition escapes_and_fractions : string := requote
  "{'a':'x\n\u00e9\\','b':[-1.5e+3, 0.25, 1E2],'c':{}}".

Definition html : string := "<html><body>Bad gateway</body></html>".

End Bodies.

(** A response with a status and a body. *)
Definition response (status : Z) (body : string) : Requests.Response :=
  {| Requests.status_code := status; Requests.text := body |}.




Definition plain_fetch : string -> prog (option Attestation) :=
  fetch_attestation PlainJson.decode.

Definition plain_main : list string -> prog Z :=
  main PlainJson.decode PlainCli.parse_args.

Definition plain_script : string -> list string -> prog unit :=
  script PlainJson.decode PlainCli.parse_args.

(** * Properties *)

(** ** Running programs *)

Lemma exec_lift {A} (net : network) (x : result A) (g : globals) :
  exec net (lift x) g = ([], x, g).
Proof. destruct x; reflexivity. Qed.

Lemma exec_bind {A B} (net : network) (p : prog A) (f : A -> prog B)
  (g : globals) :
  exec net (bind p f) g =
  match exec net p g with
  | (t, Return a, g1) =>
      let '(t', o, g2) := exec net (f a) g1 in ((t ++ t')%list, o, g2)
  | (t, Raise e, g1) => (t, Raise e, g1)
  end.
Proof.
  revert g.
  induction p as [a | e | k IH | g' k IH | rq k IH | to what k IH];
    intros g; cbn [bind exec].
  - destruct (exec net (f a) g) as [[t o] g2]; reflexivity.
  - reflexivity.
  - apply IH.
  - apply IH.
  - destruct (net rq) as [r | e]; [ | reflexivity ].
    rewrite IH. destruct (exec net (k r) g) as [[t [a | e]] g1];
      [ | reflexivity ].
    destruct (exec net (f a) g1) as [[t' o] g2]; reflexivity.
  - rewrite IH. destruct (exec net k g) as [[t [a | e]] g1]; [ | reflexivity ].
    destruct (exec net (f a) g1) as [[t' o] g2]; reflexivity.
Qed.

Section Properties.

Variable json_loads : string -> result Py.value.
Variable parse_args : list string -> parsed.

(** After the response has arrived the program is the lifting of [answer]. *)
Lemma after_response (r : Requests.Response) (net : network) (g : globals) :
  exec net
    (_ <- lift (Requests.raise_for_status r) ;;
     data <- lift (Requests.Response_json json_loads r) ;;
     d <- lift (Py.get data "data" (Py.Dict [])) ;;
     att <- lift (Py.get d "attestation" Py.None_) ;;
     if negb (Py.truthy att) then Ret None
     else
       a_uid <- lift (Py.getitem att "id") ;;
       a_txid <- lift (Py.get att "txid" Py.None_) ;;
       a_schema <- lift (Py.get att "schemaId" Py.None_) ;;
       a_attester <- lift (Py.get att "attester" Py.None_) ;;
       a_recipient <- lift (Py.get att "recipient" Py.None_) ;;
       Ret (Some (mkAttestation a_uid a_txid a_schema a_attester a_recipient)))%prog
    g
  = ([], answer json_loads r, g).
Proof.
  unfold answer, build.
  destruct (Requests.raise_for_status r) as [[] | e]; cbn; [ | reflexivity ].
  destruct (Requests.Response_json json_loads r) as [data | e]; cbn;
    [ | reflexivity ].
  destruct (Py.get data "data" (Py.Dict [])) as [d | e]; cbn; [ | reflexivity ].
  destruct (Py.get d "attestation" Py.None_) as [att | e]; cbn;
    [ | reflexivity ].
  destruct (negb (Py.truthy att)); cbn; [ reflexivity | ].
  destruct (Py.getitem att "id") as [a1 | e]; cbn; [ | reflexivity ].
  destruct (Py.get att "txid" Py.None_) as [a2 | e]; cbn; [ | reflexivity ].
  destruct (Py.get att "schemaId" Py.None_) as [a3 | e]; cbn; [ | reflexivity ].
  destruct (Py.get att "attester" Py.None_) as [a4 | e]; cbn; [ | reflexivity ].
  destruct (Py.get att "recipient" Py.None_) as [a5 | e]; cbn; reflexivity.
Qed.

(** One execution of [fetch_attestation]: the request goes out to the
    endpoint that [EAS_GQL] is bound to, the outcome is the failure of the
    call or the [answer] to the response, and the globals are left as they
    were. *)
Lemma exec_fetch_attestation (net : network) (uid : string) (g : globals) :
  exec net (fetch_attestation json_loads uid) g =
  ([Posted (request_to (g_EAS_GQL g) uid)],
   match net (request_to (g_EAS_GQL g) uid) with
   | Return r => answer json_loads r
   | Raise e => Raise e
   end,
   g).
Proof.
  unfold fetch_attestation, post, load. cbn [bind exec].
  fold (request_to (g_EAS_GQL g) uid).
  destruct (net (request_to (g_EAS_GQL g) uid)) as [r | e]; [ | reflexivity ].
  cbn [bind]. rewrite after_response. reflexivity.
Qed.

(** One run of [fetch_attestation]: the request goes out, and the outcome is
    the failure of the call or the [answer] to the response. *)
Lemma run_fetch_attestation (net : network) (uid : string) :
  run net (fetch_attestation json_loads uid) =
  ([Posted (fetch_request uid)],
   match net (fetch_request uid) with
   | Return r => answer json_loads r
   | Raise e => Raise e
   end).
Proof.
  unfold run. rewrite exec_fetch_attestation. reflexivity.
Qed.

(** One run of [main] on a command line that [argparse] reads. *)
Lemma run_main (net : network) (argv : list string) (args : Namespace) :
  parse_args argv = Parsed args ->
  run net (main json_loads parse_args argv) =
  match outcome_of (run net (fetch_attestation json_loads (ns_uid args))) with
  | Return None =>
      ([Posted (fetch_request (ns_uid args));
        Printed Stderr (Line "Not found")], Return 2)
  | Return (Some a) =>
      ([Posted (fetch_request (ns_uid args));
        Printed Stdout (ReprOf a)], Return 0)
  | Raise e => ([Posted (fetch_request (ns_uid args))], Raise e)
  end.
Proof.
  intros Hargs. unfold main. rewrite Hargs, run_fetch_attestation.
  unfold run, outcome_of. cbn [snd]. rewrite exec_bind, exec_fetch_attestation.
  change (request_to (g_EAS_GQL module_globals) (ns_uid args))
    with (fetch_request (ns_uid args)).
  destruct (net (fetch_request (ns_uid args))) as [r | e]; [ | reflexivity ].
  destruct (answer json_loads r) as [[a | ] | e]; reflexivity.
Qed.

(** On a command line that [argparse] refuses, [main] prints the parser's
    message and leaves with its code, before any request. *)
Lemma run_main_exits (net : network) (argv : list string)
  (to : stream) (message : string) (code : Z) :
  parse_args argv = Exits to message code ->
  run net (main json_loads parse_args argv) =
  ([Printed to (Line message)], Raise (SystemExit code)).
Proof. intros Hargs. unfold main. rewrite Hargs. reflexivity. Qed.

Lemma raise_for_status_success (r : Requests.Response) :
  200 <= Requests.status_code r < 300 ->
  Requests.raise_for_status r = Return tt.
Proof.
  intros H. unfold Requests.raise_for_status.
  replace (Requests.status_code r <? 600) with true by (symmetry; apply Z.ltb_lt; lia).
  replace (400 <=? Requests.status_code r) with false
    by (symmetry; apply Z.leb_gt; lia).
  reflexivity.
Qed.

Lemma raise_for_status_error (r : Requests.Response) :
  400 <= Requests.status_code r < 600 ->
  Requests.raise_for_status r = Raise (HTTPError (Requests.status_code r)).
Proof.
  intros H. unfold Requests.raise_for_status.
  replace (Requests.status_code r <? 600) with true by (symmetry; apply Z.ltb_lt; lia).
  replace (400 <=? Requests.status_code r) with true
    by (symmetry; apply Z.leb_le; lia).
  reflexivity.
Qed.

(** The answer to a response that [raise_for_status] lets through and the
    decoder reads. *)
Lemma answer_decoded (r : Requests.Response) (body : Py.value) :
  Requests.raise_for_status r = Return tt ->
  json_loads (Requests.text r) = Return body ->
  answer json_loads r =
  result_bind (Py.get body "data" (Py.Dict [])) (fun d =>
  result_bind (Py.get d "attestation" Py.None_) (fun att =>
  if negb (Py.truthy att) then Return None else build att)).
Proof.
  intros Hstatus Hbody. unfold answer, Requests.Response_json.
  rewrite Hstatus, Hbody. reflexivity.
Qed.

(** A body outside the expected shape: [data] present and not an object
    (a GraphQL answer with [data] null is one) ends in [AttributeError]. *)
Lemma answer_data_not_object (r : Requests.Response)
  (top : list (string * Py.value)) (v : Py.value) :
  Requests.raise_for_status r = Return tt ->
  json_loads (Requests.text r) = Return (Py.Dict top) ->
  Py.dict_get "data" top = Some v ->
  (forall d, v <> Py.Dict d) ->
  answer json_loads r = Raise AttributeError.
Proof.
  intros Hstatus Hbody Hdata Hv.
  rewrite (answer_decoded r _ Hstatus Hbody). cbn. rewrite Hdata. cbn.
  destruct v; try reflexivity. now contradiction (Hv items).
Qed.

(** The record built from a truthy attestation object. *)
Lemma build_dict (att : list (string * Py.value)) :
  build (Py.Dict att) =
  match Py.dict_get "id" att with
  | Some id => Return (Some (record_of id att))
  | None => Raise (KeyError "id")
  end.
Proof.
  unfold build, record_of, member_or_none. cbn.
  destruct (Py.dict_get "id" att); cbn; [ | reflexivity ].
  destruct (Py.dict_get "txid" att), (Py.dict_get "schemaId" att),
    (Py.dict_get "attester" att), (Py.dict_get "recipient" att); reflexivity.
Qed.

Lemma answer_attestation (r : Requests.Response) (body att : Py.value) :
  Requests.raise_for_status r = Return tt ->
  json_loads (Requests.text r) = Return body ->
  attestation_of body = Some att ->
  answer json_loads r =
  if negb (Py.truthy att) then Return None else build att.
Proof.
  intros Hstatus Hbody Hatt. rewrite (answer_decoded r _ Hstatus Hbody).
  destruct body as [ | | | | | | top]; try discriminate. cbn in *.
  destruct (Py.dict_get "data" top) as [[ | | | | | | d] | ]; try discriminate.
  cbn. rewrite Hatt. reflexivity.
Qed.

(** ** The fetcher *)



(** C2, amended.  A successful (2xx) response whose decoded body is an
    object without a [data] key, or with a [data] object that has no
    [attestation] or a null one, makes [fetch_attestation] return [None],
    as a value and not as an exception. *)
Theorem fetch_attestation_not_found
  (net : network) (uid : string) (r : Requests.Response) (body : Py.value) :
  net (fetch_request uid) = Return r ->
  200 <= Requests.status_code r < 300 ->
  json_loads (Requests.text r) = Return body ->
  attestation_absent_or_null body = true ->
  run net (fetch_attestation json_loads uid) =
  ([Posted (fetch_request uid)], Return None).
Proof.
  intros Hnet Hstatus Hbody Habsent.
  rewrite run_fetch_attestation, Hnet.
  rewrite (answer_decoded r body (raise_for_status_success r Hstatus) Hbody).
  destruct body as [ | | | | | | top]; try discriminate.
  cbn in *.
  destruct (Py.dict_get "data" top) as [[ | | | | | | d] | ];
    try discriminate; [ | reflexivity ].
  cbn.
  destruct (Py.dict_get "attestation" d) as [[ | | | | | | ] | ];
    try discriminate; reflexivity.
Qed.

(** C8.  The test for "not found" is a truth test: a successful response
    whose [attestation] is there and is not null, but is false as a Python
    value (the empty object, the empty list or string, zero, [false]), also
    makes [fetch_attestation] return [None]. *)
Theorem fetch_attestation_falsy_not_found
  (net : network) (uid : string) (r : Requests.Response)
  (body att : Py.value) :
  net (fetch_request uid) = Return r ->
  200 <= Requests.status_code r < 300 ->
  json_loads (Requests.text r) = Return body ->
  attestation_of body = Some att ->
  att <> Py.None_ ->
  Py.truthy att = false ->
  run net (fetch_attestation json_loads uid) =
  ([Posted (fetch_request uid)], Return None).
Proof.
  intros Hnet Hstatus Hbody Hatt _ Hfalsy.
  rewrite run_fetch_attestation, Hnet.
  rewrite (answer_attestation r body att
             (raise_for_status_success r Hstatus) Hbody Hatt).
  rewrite Hfalsy. reflexivity.
Qed.

(** C6, amended.  A successful response whose body the decoder does not
    read, so that [Response.json] raises, makes [fetch_attestation] raise
    that exception; like a failure of the call itself, the exception
    crosses [main] unhandled, with nothing printed. *)
Theorem fetch_attestation_bad_json
  (net : network) (uid : string) (r : Requests.Response) (e : exn) :
  net (fetch_request uid) = Return r ->
  200 <= Requests.status_code r < 300 ->
  json_loads (Requests.text r) = Raise e ->
  run net (fetch_attestation json_loads uid) =
    ([Posted (fetch_request uid)], Raise e)
  /\ forall (argv : list string) (args : Namespace),
       parse_args argv = Parsed args -> ns_uid args = uid ->
       run net (main json_loads parse_args argv) =
       ([Posted (fetch_request uid)], Raise e).
Proof.
  intros Hnet Hstatus Hbody.
  assert (Hrun : run net (fetch_attestation json_loads uid) =
                 ([Posted (fetch_request uid)], Raise e)).
  { rewrite run_fetch_attestation, Hnet.
    unfold answer, Requests.Response_json.
    rewrite (raise_for_status_success r Hstatus), Hbody. reflexivity. }
  split; [ exact Hrun | ].
  intros argv args Hargs Huid. rewrite (run_main net argv args Hargs), Huid.
  rewrite Hrun. reflexivity.
Qed.

(** C5, amended.  A response with a client-error or server-error status
    (400 to 599) makes [fetch_attestation] raise [HTTPError], whatever its
    body; the exception crosses [main] unhandled, with nothing printed. *)
Theorem fetch_attestation_http_error
  (net : network) (uid : string) (r : Requests.Response) :
  net (fetch_request uid) = Return r ->
  400 <= Requests.status_code r < 600 ->
  run net (fetch_attestation json_loads uid) =
    ([Posted (fetch_request uid)], Raise (HTTPError (Requests.status_code r)))
  /\ forall (argv : list string) (args : Namespace),
       parse_args argv = Parsed args -> ns_uid args = uid ->
       run net (main json_loads parse_args argv) =
       ([Posted (fetch_request uid)],
        Raise (HTTPError (Requests.status_code r))).
Proof.
  intros Hnet Hstatus.
  assert (Hrun : run net (fetch_attestation json_loads uid) =
                 ([Posted (fetch_request uid)],
                  Raise (HTTPError (Requests.status_code r)))).
  { rewrite run_fetch_attestation, Hnet. unfold answer.
    rewrite (raise_for_status_error r Hstatus). reflexivity. }
  split; [ exact Hrun | ].
  intros argv args Hargs Huid. rewrite (run_main net argv args Hargs), Huid.
  rewrite Hrun. reflexivity.
Qed.

(** C1, amended.  A response that [raise_for_status] lets through and whose
    decoded body carries, under [data], an [attestation] object with an
    [id] member makes [fetch_attestation] return the record whose fields
    are the members of that object: [uid] is [id], and [txid], [schema],
    [attester] and [recipient] are [txid], [schemaId], [attester] and
    [recipient], each [None] when the object has no such member. *)
Theorem fetch_attestation_record
  (net : network) (uid : string) (r : Requests.Response) (body : Py.value)
  (att : list (string * Py.value)) (id : Py.value) :
  net (fetch_request uid) = Return r ->
  Requests.raise_for_status r = Return tt ->
  json_loads (Requests.text r) = Return body ->
  attestation_of body = Some (Py.Dict att) ->
  Py.dict_get "id" att = Some id ->
  run net (fetch_attestation json_loads uid) =
  ([Posted (fetch_request uid)],
   Return (Some {| uid := id;
                   txid := member_or_none "txid" att;
                   schema := member_or_none "schemaId" att;
                   attester := member_or_none "attester" att;
                   recipient := member_or_none "recipient" att |})).
Proof.
  intros Hnet Hstatus Hbody Hatt Hid.
  rewrite run_fetch_attestation, Hnet.
  rewrite (answer_attestation r body _ Hstatus Hbody Hatt).
  destruct att as [ | item att']; [ discriminate | ].
  cbn [Py.truthy negb]. rewrite build_dict, Hid. reflexivity.
Qed.

(** C4, amended.  Of the three members, [schemaId] and [attester] are read
    with [.get] and go into the record unchecked, as [None] when absent;
    [id] is read with a subscript.  So for a non-empty [attestation] object
    in a response that [raise_for_status] lets through: with an [id] a
    record is returned whatever else is missing, and without an [id] the
    call raises [KeyError] and returns no record. *)
Theorem fetch_attestation_required_id
  (net : network) (uid : string) (r : Requests.Response) (body : Py.value)
  (att : list (string * Py.value)) :
  net (fetch_request uid) = Return r ->
  Requests.raise_for_status r = Return tt ->
  json_loads (Requests.text r) = Return body ->
  attestation_of body = Some (Py.Dict att) ->
  att <> [] ->
  (forall id : Py.value,
     Py.dict_get "id" att = Some id ->
     exists a : Attestation,
       outcome_of (run net (fetch_attestation json_loads uid))
         = Return (Some a)
       /\ (Py.dict_get "schemaId" att = None -> schema a = Py.None_)
       /\ (Py.dict_get "attester" att = None -> attester a = Py.None_)
       /\ (forall v, Py.dict_get "schemaId" att = Some v -> schema a = v)
       /\ (forall v, Py.dict_get "attester" att = Some v -> attester a = v))
  /\ (Py.dict_get "id" att = None ->
      outcome_of (run net (fetch_attestation json_loads uid))
        = Raise (KeyError "id")).
Proof.
  intros Hnet Hstatus Hbody Hatt Hnonempty.
  assert (Hrun : outcome_of (run net (fetch_attestation json_loads uid)) =
                 build (Py.Dict att)).
  { rewrite run_fetch_attestation, Hnet.
    rewrite (answer_attestation r body _ Hstatus Hbody Hatt).
    destruct att as [ | item att']; [ contradiction | reflexivity ]. }
  rewrite Hrun, build_dict. split.
  - intros id Hid. rewrite Hid. exists (record_of id att).
    unfold record_of, member_or_none. cbn.
    repeat split; intros; match goal with
      | H : Py.dict_get _ att = _ |- _ => rewrite H; reflexivity
      end.
  - intros Hid. rewrite Hid. reflexivity.
Qed.

(** ** The entry point *)

(** C3.  On a command line that gives the identifier: when the fetcher
    returns [None], [main] prints [Not found] on standard error, prints
    nothing on standard output, and returns 2; when the fetcher returns a
    record, [main] prints that record on standard output and returns 0. *)
Theorem main_exit_paths
  (net : network) (argv : list string) (args : Namespace) :
  parse_args argv = Parsed args ->
  (outcome_of (run net (fetch_attestation json_loads (ns_uid args)))
     = Return None ->
   run net (main json_loads parse_args argv) =
   ([Posted (fetch_request (ns_uid args));
     Printed Stderr (Line "Not found")], Return 2))
  /\ (forall a : Attestation,
      outcome_of (run net (fetch_attestation json_loads (ns_uid args)))
        = Return (Some a) ->
      run net (main json_loads parse_args argv) =
      ([Posted (fetch_request (ns_uid args));
        Printed Stdout (ReprOf a)], Return 0)).
Proof.
  intros Hargs. rewrite (run_main net argv args Hargs).
  split; [ intros Hnone | intros a Hsome ].
  - rewrite Hnone. reflexivity.
  - rewrite Hsome. reflexivity.
Qed.

(** C9.  A run of [main] that ends with a return, and not with an
    exception, returns 0 or 2. *)
Theorem main_exit_codes (net : network) (argv : list string) (code : Z) :
  outcome_of (run net (main json_loads parse_args argv)) = Return code ->
  code = 0 \/ code = 2.
Proof.
  destruct (parse_args argv) as [args | to message c] eqn:Hargs.
  - rewrite (run_main net argv args Hargs).
    destruct (outcome_of (run net (fetch_attestation json_loads (ns_uid args))))
      as [[a | ] | e]; cbn; intros H; inversion H; auto.
  - rewrite (run_main_exits net argv to message c Hargs). discriminate.
Qed.

End Properties.

(** * The properties at work

    The module is run here with the plain decoder and the plain reader,
    against servers that answer with the bodies of [Bodies]. *)

Lemma loads_full :
  PlainJson.loads Bodies.full =
  Some (Py.Dict [("data", Py.Dict [("attestation",
          Py.Dict [("id", Py.Str "0xabc"); ("txid", Py.Str "0x111");
                   ("schemaId", Py.Str "0xschema");
                   ("attester", Py.Str "0xaa");
                   ("recipient", Py.Str "0xbb")])])]).
Proof. vm_compute. reflexivity. Qed.

Lemma loads_html : PlainJson.loads Bodies.html = None.
Proof. vm_compute. reflexivity. Qed.

(** The grammar takes escapes, fractions and exponents; it takes neither
    [NaN] nor markup. *)
Lemma rfc8259_examples :
  Rfc8259.valid Bodies.full = true
  /\ Rfc8259.valid Bodies.null_data = true
  /\ Rfc8259.valid Bodies.escapes_and_fractions = true
  /\ Rfc8259.valid Bodies.nan_id = false
  /\ Rfc8259.valid Bodies.html = false
  /\ Rfc8259.valid "01" = false
  /\ Rfc8259.valid "[1,]" = false.
Proof. repeat split; vm_compute; reflexivity. Qed.

(** A repeated key keeps its last value, as in a Python dict. *)
Lemma loads_repeated_key :
  PlainJson.loads (PlainJson.requote "{'a':1,'b':2,'a':3}") =
  Some (Py.Dict [("a", Py.Int 3); ("b", Py.Int 2)]).
Proof. vm_compute. reflexivity. Qed.

(** End-to-end example 1 of the specification. *)
Lemma example_found :
  run (serve (response 200 Bodies.full)) (plain_main ["--uid"; "0xabc"]) =
  ([Posted (fetch_request "0xabc");
    Printed Stdout
      (ReprOf {| uid := Py.Str "0xabc"; txid := Py.Str "0x111";
                 schema := Py.Str "0xschema"; attester := Py.Str "0xaa";
                 recipient := Py.Str "0xbb" |})],
   Return 0).
Proof. vm_compute. reflexivity. Qed.

(** End-to-end example 2. *)
Lemma example_not_found :
  run (serve (response 200 Bodies.null_attestation))
    (plain_main ["--uid"; "0xdeadbeef"]) =
  ([Posted (fetch_request "0xdeadbeef"); Printed Stderr (Line "Not found")],
   Return 2).
Proof. vm_compute. reflexivity. Qed.

(** End-to-end example 3. *)
Lemma example_optional_members_missing :
  run (serve (response 200 Bodies.no_txid_no_recipient))
    (plain_main ["--uid"; "0xabc"]) =
  ([Posted (fetch_request "0xabc");
    Printed Stdout
      (ReprOf {| uid := Py.Str "0xabc"; txid := Py.None_;
                 schema := Py.Str "0xschema"; attester := Py.Str "0xaa";
                 recipient := Py.None_ |})],
   Return 0).
Proof. vm_compute. reflexivity. Qed.

(** A host that cannot be reached, and a command line without the option. *)
Lemma example_unreachable :
  run unreachable (plain_main ["--uid"; "0xabc"]) =
  ([Posted (fetch_request "0xabc")],
   Raise (RequestException "ConnectionError")).
Proof. vm_compute. reflexivity. Qed.

Lemma example_usage :
  run (serve (response 200 Bodies.full)) (plain_main []) =
  ([Printed Stderr (Line PlainCli.usage)], Raise (SystemExit 2)).
Proof. vm_compute. reflexivity. Qed.

(** ** Instances of the theorems *)


Lemma fetch_attestation_not_found_witness :
  (attestation_absent_or_null
     (Py.Dict [("data", Py.Dict [("attestation", Py.None_)])]) = true
   /\ run (serve (response 200 Bodies.null_attestation))
        (plain_fetch "0xdeadbeef") =
      ([Posted (fetch_request "0xdeadbeef")], Return None))
  /\ (attestation_absent_or_null
        (Py.Dict [("errors", Py.List [Py.Dict [("message", Py.Str "boom")]])])
      = true
      /\ run (serve (response 200 Bodies.no_data)) (plain_fetch "0xdeadbeef") =
         ([Posted (fetch_request "0xdeadbeef")], Return None)).
Proof.
  split; (split; [ reflexivity | ]).
  - apply (fetch_attestation_not_found PlainJson.decode
             (serve (response 200 Bodies.null_attestation)) "0xdeadbeef"
             (response 200 Bodies.null_attestation)
             (Py.Dict [("data", Py.Dict [("attestation", Py.None_)])]));
      [ reflexivity | cbn; lia | vm_compute; reflexivity | reflexivity ].
  - apply (fetch_attestation_not_found PlainJson.decode
             (serve (response 200 Bodies.no_data)) "0xdeadbeef"
             (response 200 Bodies.no_data)
             (Py.Dict [("errors",
                        Py.List [Py.Dict [("message", Py.Str "boom")]])]));
      [ reflexivity | cbn; lia | vm_compute; reflexivity | reflexivity ].
Defined.

Lemma fetch_attestation_falsy_not_found_witness :
  Py.Dict [] <> Py.None_
  /\ Py.truthy (Py.Dict []) = false
  /\ run (serve (response 200 Bodies.empty_attestation)) (plain_fetch "0xabc") =
     ([Posted (fetch_request "0xabc")], Return None).
Proof.
  split; [ discriminate | split; [ reflexivity | ] ].
  apply (fetch_attestation_falsy_not_found PlainJson.decode
           (serve (response 200 Bodies.empty_attestation)) "0xabc"
           (response 200 Bodies.empty_attestation)
           (Py.Dict [("data", Py.Dict [("attestation", Py.Dict [])])])
           (Py.Dict []));
    [ reflexivity | cbn; lia | vm_compute; reflexivity | reflexivity
    | discriminate | reflexivity ].
Defined.

Lemma fetch_attestation_bad_json_witness :
  PlainJson.decode Bodies.html = Raise JSONDecodeError
  /\ run (serve (response 200 Bodies.html)) (plain_fetch "0xabc") =
     ([Posted (fetch_request "0xabc")], Raise JSONDecodeError)
  /\ run (serve (response 200 Bodies.html)) (plain_main ["--uid"; "0xabc"]) =
     ([Posted (fetch_request "0xabc")], Raise JSONDecodeError).
Proof.
  split; [ vm_compute; reflexivity | ].
  destruct (fetch_attestation_bad_json PlainJson.decode PlainCli.parse_args
              (serve (response 200 Bodies.html)) "0xabc"
              (response 200 Bodies.html) JSONDecodeError)
    as [Hfetch Hmain];
    [ reflexivity | cbn; lia | vm_compute; reflexivity | ].
  split; [ exact Hfetch | ].
  apply (Hmain ["--uid"; "0xabc"] (mkNamespace "0xabc")); reflexivity.
Defined.


Lemma fetch_attestation_http_error_witness :
  run (serve (response 404 Bodies.full)) (plain_fetch "0xabc") =
    ([Posted (fetch_request "0xabc")], Raise (HTTPError 404))
  /\ run (serve (response 503 Bodies.html)) (plain_main ["--uid"; "0xabc"]) =
     ([Posted (fetch_request "0xabc")], Raise (HTTPError 503)).
Proof.
  split.
  - apply (fetch_attestation_http_error PlainJson.decode PlainCli.parse_args
             (serve (response 404 Bodies.full)) "0xabc"
             (response 404 Bodies.full)); [ reflexivity | cbn; lia ].
  - destruct (fetch_attestation_http_error PlainJson.decode PlainCli.parse_args
                (serve (response 503 Bodies.html)) "0xabc"
                (response 503 Bodies.html))
      as [_ Hmain]; [ reflexivity | cbn; lia | ].
    apply (Hmain ["--uid"; "0xabc"] (mkNamespace "0xabc")); reflexivity.
Defined.

Lemma fetch_attestation_record_witness :
  run (serve (response 200 Bodies.full)) (plain_fetch "0xabc") =
    ([Posted (fetch_request "0xabc")],
     Return (Some {| uid := Py.Str "0xabc"; txid := Py.Str "0x111";
                     schema := Py.Str "0xschema"; attester := Py.Str "0xaa";
                     recipient := Py.Str "0xbb" |}))
  /\ run (serve (response 200 Bodies.no_txid_no_recipient))
       (plain_fetch "0xabc") =
     ([Posted (fetch_request "0xabc")],
      Return (Some {| uid := Py.Str "0xabc"; txid := Py.None_;
                      schema := Py.Str "0xschema"; attester := Py.Str "0xaa";
                      recipient := Py.None_ |})).
Proof.
  split.
  - apply (fetch_attestation_record PlainJson.decode
             (serve (response 200 Bodies.full)) "0xabc"
             (response 200 Bodies.full)
             (Py.Dict [("data", Py.Dict [("attestation",
                Py.Dict [("id", Py.Str "0xabc"); ("txid", Py.Str "0x111");
                         ("schemaId", Py.Str "0xschema");
                         ("attester", Py.Str "0xaa");
                         ("recipient", Py.Str "0xbb")])])])
             [("id", Py.Str "0xabc"); ("txid", Py.Str "0x111");
              ("schemaId", Py.Str "0xschema"); ("attester", Py.Str "0xaa");
              ("recipient", Py.Str "0xbb")]
             (Py.Str "0xabc"));
      [ reflexivity | reflexivity | vm_compute; reflexivity
      | reflexivity | reflexivity ].
  - apply (fetch_attestation_record PlainJson.decode
             (serve (response 200 Bodies.no_txid_no_recipient)) "0xabc"
             (response 200 Bodies.no_txid_no_recipient)
             (Py.Dict [("data", Py.Dict [("attestation",
                Py.Dict [("id", Py.Str "0xabc");
                         ("schemaId", Py.Str "0xschema");
                         ("attester", Py.Str "0xaa")])])])
             [("id", Py.Str "0xabc"); ("schemaId", Py.Str "0xschema");
              ("attester", Py.Str "0xaa")]
             (Py.Str "0xabc"));
      [ reflexivity | reflexivity | vm_compute; reflexivity
      | reflexivity | reflexivity ].
Defined.

Lemma fetch_attestation_required_id_witness :
  (exists a : Attestation,
     outcome_of (run (serve (response 200 Bodies.only_id))
                   (plain_fetch "0xabc")) = Return (Some a)
     /\ uid a = Py.Str "0xabc"
     /\ schema a = Py.None_ /\ attester a = Py.None_)
  /\ outcome_of (run (serve (response 200 Bodies.only_optional))
                   (plain_fetch "0xabc")) = Raise (KeyError "id").
Proof.
  split.
  - destruct (fetch_attestation_required_id PlainJson.decode
                (serve (response 200 Bodies.only_id)) "0xabc"
                (response 200 Bodies.only_id)
                (Py.Dict [("data", Py.Dict [("attestation",
                   Py.Dict [("id", Py.Str "0xabc")])])])
                [("id", Py.Str "0xabc")])
      as [Hwith _];
      [ reflexivity | reflexivity | vm_compute; reflexivity | reflexivity
      | discriminate | ].
    destruct (Hwith (Py.Str "0xabc") eq_refl)
      as [a [Hrun [Hschema [Hattester _]]]].
    exists a. repeat split; [ exact Hrun | | auto | auto ].
    vm_compute in Hrun. injection Hrun as <-. reflexivity.
  - apply (fetch_attestation_required_id PlainJson.decode
             (serve (response 200 Bodies.only_optional)) "0xabc"
             (response 200 Bodies.only_optional)
             (Py.Dict [("data", Py.Dict [("attestation",
                Py.Dict [("txid", Py.Str "0x111");
                         ("recipient", Py.Str "0xbb")])])])
             [("txid", Py.Str "0x111"); ("recipient", Py.Str "0xbb")]);
      [ reflexivity | reflexivity | vm_compute; reflexivity | reflexivity
      | discriminate | reflexivity ].
Defined.

Lemma main_exit_paths_witness :
  run (serve (response 200 Bodies.null_attestation))
    (plain_main ["--uid"; "0xdeadbeef"]) =
    ([Posted (fetch_request "0xdeadbeef"); Printed Stderr (Line "Not found")],
     Return 2)
  /\ run (serve (response 200 Bodies.full)) (plain_main ["--uid"; "0xabc"]) =
     ([Posted (fetch_request "0xabc");
       Printed Stdout
         (ReprOf {| uid := Py.Str "0xabc"; txid := Py.Str "0x111";
                    schema := Py.Str "0xschema"; attester := Py.Str "0xaa";
                    recipient := Py.Str "0xbb" |})],
      Return 0).
Proof.
  split.
  - apply (proj1 (main_exit_paths PlainJson.decode PlainCli.parse_args
                    (serve (response 200 Bodies.null_attestation))
                    ["--uid"; "0xdeadbeef"] (mkNamespace "0xdeadbeef")
                    eq_refl)).
    vm_compute. reflexivity.
  - apply (proj2 (main_exit_paths PlainJson.decode PlainCli.parse_args
                    (serve (response 200 Bodies.full))
                    ["--uid"; "0xabc"] (mkNamespace "0xabc") eq_refl)).
    vm_compute. reflexivity.
Defined.

Lemma main_exit_codes_witness :
  outcome_of (run (serve (response 200 Bodies.null_attestation))
                (plain_main ["--uid"; "0xdeadbeef"])) = Return 2
  /\ (2 = 0 \/ 2 = 2).
Proof.
  split; [ vm_compute; reflexivity | ].
  apply (main_exit_codes PlainJson.decode PlainCli.parse_args
           (serve (response 200 Bodies.null_attestation))
           ["--uid"; "0xdeadbeef"] 2).
  vm_compute. reflexivity.
Defined.

(** ** Where the specification and the module part *)

(** C6 as written fails: [Response.json] reads more than JSON.  A body
    with [NaN] in it is no JSON, the decoder takes it all the same, and the
    fetcher returns a record. *)
Lemma invalid_json_returns_record :
  Rfc8259.valid Bodies.nan_id = false
  /\ 200 <= Requests.status_code (response 200 Bodies.nan_id) < 300
  /\ run (serve (response 200 Bodies.nan_id)) (plain_fetch "0xabc") =
     ([Posted (fetch_request "0xabc")],
      Return (Some {| uid := Py.Float S754_nan; txid := Py.None_;
                      schema := Py.None_; attester := Py.None_;
                      recipient := Py.None_ |})).
Proof.
  split; [ vm_compute; reflexivity | split; [ cbn; lia | ] ].
  vm_compute. reflexivity.
Qed.


(** C2 as written fails: [data.attestation] is also absent when there is no
    [data] object to hold it.  A GraphQL answer whose [data] is null, and a
    body that is not an object at all, make [.get] raise [AttributeError]
    where the claim has [None] returned. *)
Lemma attestation_absent_raises :
  (PlainJson.loads Bodies.null_data =
     Some (Py.Dict [("data", Py.None_);
                    ("errors", Py.List [Py.Dict [("message", Py.Str "boom")]])])
   /\ attestation_of
        (Py.Dict [("data", Py.None_);
                  ("errors", Py.List [Py.Dict [("message", Py.Str "boom")]])])
      = None
   /\ run (serve (response 200 Bodies.null_data)) (plain_fetch "0xdeadbeef") =
      ([Posted (fetch_request "0xdeadbeef")], Raise AttributeError))
  /\ (PlainJson.loads Bodies.empty_list = Some (Py.List [])
      /\ attestation_of (Py.List []) = None
      /\ run (serve (response 200 Bodies.empty_list))
           (plain_fetch "0xdeadbeef") =
         ([Posted (fetch_request "0xdeadbeef")], Raise AttributeError)).
Proof. repeat split; vm_compute; reflexivity. Qed.

(** C1 as written fails: an [attestation] that is a non-null object does not
    always give a record.  The empty object is false as a Python value, so
    the fetcher returns [None]; and an object without [id] makes the
    subscript raise [KeyError]. *)
Lemma attestation_object_without_record :
  (PlainJson.loads Bodies.empty_attestation =
     Some (Py.Dict [("data", Py.Dict [("attestation", Py.Dict [])])])
   /\ run (serve (response 200 Bodies.empty_attestation)) (plain_fetch "0xabc") =
      ([Posted (fetch_request "0xabc")], Return None))
  /\ (PlainJson.loads Bodies.no_id =
        Some (Py.Dict [("data", Py.Dict [("attestation",
                Py.Dict [("schemaId", Py.Str "0xschema");
                         ("attester", Py.Str "0xaa")])])])
      /\ run (serve (response 200 Bodies.no_id)) (plain_fetch "0xabc") =
         ([Posted (fetch_request "0xabc")], Raise (KeyError "id"))).
Proof. repeat split; vm_compute; reflexivity. Qed.

(** C4 as written fails: with [id] absent from a non-null [attestation]
    object the fetcher raises, and returns no record. *)
Lemma absent_id_raises :
  PlainJson.loads Bodies.only_optional =
    Some (Py.Dict [("data", Py.Dict [("attestation",
            Py.Dict [("txid", Py.Str "0x111");
                     ("recipient", Py.Str "0xbb")])])])
  /\ run (serve (response 200 Bodies.only_optional)) (plain_fetch "0xabc") =
     ([Posted (fetch_request "0xabc")], Raise (KeyError "id"))
  /\ forall a : option Attestation,
       outcome_of (run (serve (response 200 Bodies.only_optional))
                     (plain_fetch "0xabc")) <> Return a.
Proof.
  split; [ vm_compute; reflexivity | split; [ vm_compute; reflexivity | ] ].
  intros a. vm_compute. discriminate.
Qed.

(** C5 as written fails: [raise_for_status] raises for the statuses 400 to
    599 only.  A response outside 2xx and outside that range, such as a
    300 that carries a body, is decoded like a successful one, and here
    gives a record. *)
Lemma status_300_returns_record :
  ~ (200 <= Requests.status_code (response 300 Bodies.full) < 300)
  /\ run (serve (response 300 Bodies.full)) (plain_fetch "0xabc") =
     ([Posted (fetch_request "0xabc")],
      Return (Some {| uid := Py.Str "0xabc"; txid := Py.Str "0x111";
                      schema := Py.Str "0xschema"; attester := Py.Str "0xaa";
                      recipient := Py.Str "0xbb" |})).
Proof.
  split; [ cbn; lia | vm_compute; reflexivity ].
Qed.

(** * Further properties of the module *)

Section Further.

Variable json_loads : string -> result Py.value.
Variable parse_args : list string -> parsed.

(** ** What the fetcher lets through *)

(** When [requests.post] itself raises (no connection, timeout), the fetcher
    raises the same exception, after that one call. *)
Theorem fetch_attestation_transport_failure
  (net : network) (uid : string) (e : exn) :
  net (fetch_request uid) = Raise e ->
  run net (fetch_attestation json_loads uid) =
  ([Posted (fetch_request uid)], Raise e).
Proof.
  intros Hnet. rewrite run_fetch_attestation, Hnet. reflexivity.
Qed.

(** A body that is not an object, or whose [data] is there and is not an
    object, ends the fetcher in [AttributeError]: [.get] is called on it
    unguarded. *)
Theorem fetch_attestation_shape_error
  (net : network) (uid : string) (r : Requests.Response) (body : Py.value) :
  net (fetch_request uid) = Return r ->
  Requests.raise_for_status r = Return tt ->
  json_loads (Requests.text r) = Return body ->
  (forall top, body <> Py.Dict top)
  \/ (exists top v, body = Py.Dict top
                    /\ Py.dict_get "data" top = Some v
                    /\ forall d, v <> Py.Dict d) ->
  run net (fetch_attestation json_loads uid) =
  ([Posted (fetch_request uid)], Raise AttributeError).
Proof.
  intros Hnet Hstatus Hbody Hshape.
  rewrite run_fetch_attestation, Hnet. f_equal.
  destruct Hshape as [Hnot | (top & v & -> & Hdata & Hv)].
  - rewrite (answer_decoded json_loads r body Hstatus Hbody).
    destruct body; try reflexivity. now contradiction (Hnot items).
  - exact (answer_data_not_object json_loads r top v Hstatus Hbody Hdata Hv).
Qed.

(** An [attestation] that is true as a Python value and is not an object (a
    non-empty string or list, a non-zero number, [true]) passes the test
    for "not found" and then fails the subscript: [TypeError]. *)
Theorem fetch_attestation_not_subscriptable
  (net : network) (uid : string) (r : Requests.Response)
  (body att : Py.value) :
  net (fetch_request uid) = Return r ->
  Requests.raise_for_status r = Return tt ->
  json_loads (Requests.text r) = Return body ->
  attestation_of body = Some att ->
  Py.truthy att = true ->
  (forall items, att <> Py.Dict items) ->
  run net (fetch_attestation json_loads uid) =
  ([Posted (fetch_request uid)], Raise TypeError).
Proof.
  intros Hnet Hstatus Hbody Hatt Htrue Hnot.
  rewrite run_fetch_attestation, Hnet.
  rewrite (answer_attestation json_loads r body att Hstatus Hbody Hatt), Htrue.
  destruct att; try reflexivity. now contradiction (Hnot items).
Qed.

(** Once a response has arrived, the fetcher can only raise [HTTPError]
    with the status of the response, an exception that the decoder raises
    on the body ([JSONDecodeError], or [RecursionError] and [ValueError]
    at the decoder's limits), [AttributeError], [TypeError], or
    [KeyError] for [id]. *)
Theorem fetch_attestation_exceptions
  (net : network) (uid : string) (r : Requests.Response) (e : exn) :
  net (fetch_request uid) = Return r ->
  outcome_of (run net (fetch_attestation json_loads uid)) = Raise e ->
  e = HTTPError (Requests.status_code r)
  \/ json_loads (Requests.text r) = Raise e
  \/ e = AttributeError \/ e = TypeError
  \/ e = KeyError "id".
Proof.
  intros Hnet. rewrite run_fetch_attestation, Hnet. cbn [outcome_of snd].
  unfold answer, Requests.raise_for_status, Requests.Response_json.
  destruct ((400 <=? Requests.status_code r) && (Requests.status_code r <? 600));
    cbn; [ intros [= <-]; auto | ].
  destruct (json_loads (Requests.text r)) as [body | e0];
    cbn; [ | intros [= <-]; auto ].
  destruct (Py.get body "data" (Py.Dict [])) as [d | e1] eqn:Hd; cbn.
  2: { intros [= <-]. destruct body; cbn in Hd; try (injection Hd as <-; auto).
       destruct (Py.dict_get "data" items); discriminate. }
  destruct (Py.get d "attestation" Py.None_) as [att | e1] eqn:Ha; cbn.
  2: { intros [= <-]. destruct d; cbn in Ha; try (injection Ha as <-; auto).
       destruct (Py.dict_get "attestation" items); discriminate. }
  destruct (negb (Py.truthy att)); [ discriminate | ].
  destruct att as [ | | | | | | items];
    try (cbn; intros [= <-]; auto 6).
  rewrite build_dict. destruct (Py.dict_get "id" items);
    [ discriminate | intros [= <-]; auto 6 ].
Qed.

(** For a body of the expected shape, [None] comes back exactly when the
    [attestation] is false as a Python value: a true one gives a record or
    an exception, never [None]. *)
Theorem fetch_attestation_none_iff_falsy
  (net : network) (uid : string) (r : Requests.Response)
  (body att : Py.value) :
  net (fetch_request uid) = Return r ->
  Requests.raise_for_status r = Return tt ->
  json_loads (Requests.text r) = Return body ->
  attestation_of body = Some att ->
  outcome_of (run net (fetch_attestation json_loads uid)) = Return None
  <-> Py.truthy att = false.
Proof.
  intros Hnet Hstatus Hbody Hatt.
  rewrite run_fetch_attestation, Hnet. cbn [outcome_of snd].
  rewrite (answer_attestation json_loads r body att Hstatus Hbody Hatt).
  destruct (Py.truthy att) eqn:Htruthy; cbn [negb].
  - split; [ | discriminate ].
    destruct att as [ | | | | | | items]; try discriminate.
    rewrite build_dict. destruct (Py.dict_get "id" items); discriminate.
  - split; reflexivity.
Qed.

(** The fetcher does not compare what it gets with what it asked for: the
    outcome is that of the response, also when the response answers the
    request made for another identifier. *)
Theorem fetch_attestation_ignores_requested_uid
  (net1 net2 : network) (uid1 uid2 : string) :
  net1 (fetch_request uid1) = net2 (fetch_request uid2) ->
  outcome_of (run net1 (fetch_attestation json_loads uid1)) =
  outcome_of (run net2 (fetch_attestation json_loads uid2)).
Proof.
  intros Hsame. rewrite !run_fetch_attestation, Hsame. reflexivity.
Qed.

(** ** What the entry point does around the fetcher *)

(** [main] handles no exception: whatever the fetcher raises leaves [main]
    unchanged, and [main] prints nothing, on either stream. *)
Theorem main_silent_on_exception
  (net : network) (argv : list string) (args : Namespace) (e : exn) :
  parse_args argv = Parsed args ->
  outcome_of (run net (fetch_attestation json_loads (ns_uid args))) = Raise e ->
  run net (main json_loads parse_args argv) =
  ([Posted (fetch_request (ns_uid args))], Raise e).
Proof.
  intros Hargs Hraise. rewrite (run_main json_loads parse_args net argv args Hargs).
  rewrite Hraise. reflexivity.
Qed.

(** [main] returns 0 exactly when it has printed a record on standard
    output. *)
Theorem main_zero_iff_record_printed (net : network) (argv : list string) :
  outcome_of (run net (main json_loads parse_args argv)) = Return 0
  <-> exists a : Attestation,
        In (Printed Stdout (ReprOf a))
           (trace_of (run net (main json_loads parse_args argv))).
Proof.
  destruct (parse_args argv) as [args | to message c] eqn:Hargs.
  - rewrite (run_main json_loads parse_args net argv args Hargs).
    destruct (outcome_of
                (run net (fetch_attestation json_loads (ns_uid args))))
      as [[a | ] | e]; cbn.
    + split; [ intros _; exists a; auto | reflexivity ].
    + split; [ discriminate | ].
      intros [a [H | [H | []]]]; discriminate.
    + split; [ discriminate | ].
      intros [a [H | []]]; discriminate.
  - rewrite (run_main_exits json_loads parse_args net argv to message c Hargs).
    cbn. split; [ discriminate | ].
    intros [a [H | []]]; discriminate.
Qed.

(** [main] sends a request exactly when [argparse] has read the command
    line: a refused command line costs no network call. *)
Theorem main_requests_iff_parsed (net : network) (argv : list string) :
  (exists rq, In (Posted rq)
                 (trace_of (run net (main json_loads parse_args argv))))
  <-> exists args, parse_args argv = Parsed args.
Proof.
  destruct (parse_args argv) as [args | to message c] eqn:Hargs.
  - split; [ intros _; exists args; reflexivity | intros _ ].
    exists (fetch_request (ns_uid args)).
    rewrite (run_main json_loads parse_args net argv args Hargs).
    destruct (outcome_of
                (run net (fetch_attestation json_loads (ns_uid args))))
      as [[a | ] | e]; cbn; auto.
  - rewrite (run_main_exits json_loads parse_args net argv to message c Hargs).
    cbn. split.
    + intros [rq [H | []]]. discriminate.
    + intros [args H]. discriminate.
Qed.

(** ** The module run as a script *)

(** Run as a script, the module always ends in an exception, and when
    [argparse] has read the arguments that follow the program name the
    exception tells the outcome of the fetch: [SystemExit(0)] for a record,
    [SystemExit(2)] for "not found", and the fetcher's own exception
    otherwise. *)
Theorem script_exit
  (net : network) (sys_argv : list string) (args : Namespace) :
  parse_args (List.tl sys_argv) = Parsed args ->
  outcome_of (run net (script json_loads parse_args "__main__" sys_argv)) =
  match outcome_of (run net (fetch_attestation json_loads (ns_uid args))) with
  | Return (Some _) => Raise (SystemExit 0)
  | Return None => Raise (SystemExit 2)
  | Raise e => Raise e
  end.
Proof.
  intros Hargs. unfold script. cbn [String.eqb Ascii.eqb Bool.eqb].
  pose proof (run_main json_loads parse_args net (List.tl sys_argv) args Hargs)
    as Hmain.
  unfold run in *. rewrite exec_bind.
  destruct (exec net (main json_loads parse_args (List.tl sys_argv))
              module_globals) as [[t o] g1].
  cbn [fst] in Hmain.
  destruct (outcome_of
              (fst (exec net (fetch_attestation json_loads (ns_uid args))
                      module_globals)))
    as [[a | ] | e]; injection Hmain as -> ->; reflexivity.
Qed.

(** Imported under any other name, the module body makes no request and
    prints nothing. *)
Theorem script_imported (net : network) (name : string)
  (sys_argv : list string) :
  name <> "__main__" ->
  run net (script json_loads parse_args name sys_argv) = ([], Return tt).
Proof.
  intros Hname. unfold script.
  destruct (String.eqb_spec name "__main__"); [ contradiction | reflexivity ].
Qed.

End Further.

(** ** Instances of the further properties *)

Lemma fetch_attestation_transport_failure_witness :
  run unreachable (plain_fetch "0xabc") =
  ([Posted (fetch_request "0xabc")],
   Raise (RequestException "ConnectionError")).
Proof.
  apply (fetch_attestation_transport_failure PlainJson.decode unreachable
           "0xabc" (RequestException "ConnectionError")).
  reflexivity.
Defined.

Lemma fetch_attestation_shape_error_witness :
  run (serve (response 200 Bodies.null_data)) (plain_fetch "0xabc") =
    ([Posted (fetch_request "0xabc")], Raise AttributeError)
  /\ run (serve (response 200 Bodies.empty_list)) (plain_fetch "0xabc") =
     ([Posted (fetch_request "0xabc")], Raise AttributeError).
Proof.
  split.
  - apply (fetch_attestation_shape_error PlainJson.decode
             (serve (response 200 Bodies.null_data)) "0xabc"
             (response 200 Bodies.null_data)
             (Py.Dict [("data", Py.None_);
                       ("errors",
                        Py.List [Py.Dict [("message", Py.Str "boom")]])]));
      [ reflexivity | reflexivity | vm_compute; reflexivity | ].
    right. eexists. exists Py.None_.
    split; [ reflexivity | split; [ reflexivity | discriminate ] ].
  - apply (fetch_attestation_shape_error PlainJson.decode
             (serve (response 200 Bodies.empty_list)) "0xabc"
             (response 200 Bodies.empty_list) (Py.List []));
      [ reflexivity | reflexivity | vm_compute; reflexivity | ].
    left. discriminate.
Defined.

Lemma fetch_attestation_not_subscriptable_witness :
  run (serve (response 200 Bodies.string_attestation)) (plain_fetch "0xabc") =
  ([Posted (fetch_request "0xabc")], Raise TypeError).
Proof.
  apply (fetch_attestation_not_subscriptable PlainJson.decode
           (serve (response 200 Bodies.string_attestation)) "0xabc"
           (response 200 Bodies.string_attestation)
           (Py.Dict [("data", Py.Dict [("attestation", Py.Str "0xabc")])])
           (Py.Str "0xabc"));
    [ reflexivity | reflexivity | vm_compute; reflexivity | reflexivity
    | reflexivity | discriminate ].
Defined.

Lemma fetch_attestation_exceptions_witness :
  outcome_of (run (serve (response 200 Bodies.no_id)) (plain_fetch "0xabc"))
    = Raise (KeyError "id")
  /\ (KeyError "id" = HTTPError 200
      \/ PlainJson.decode Bodies.no_id = Raise (KeyError "id")
      \/ KeyError "id" = AttributeError
      \/ KeyError "id" = TypeError \/ KeyError "id" = KeyError "id").
Proof.
  split; [ vm_compute; reflexivity | ].
  apply (fetch_attestation_exceptions PlainJson.decode
           (serve (response 200 Bodies.no_id)) "0xabc"
           (response 200 Bodies.no_id) (KeyError "id"));
    [ reflexivity | vm_compute; reflexivity ].
Defined.

Lemma fetch_attestation_none_iff_falsy_witness :
  outcome_of (run (serve (response 200 Bodies.empty_attestation))
                (plain_fetch "0xabc")) = Return None
  <-> Py.truthy (Py.Dict []) = false.
Proof.
  apply (fetch_attestation_none_iff_falsy PlainJson.decode
           (serve (response 200 Bodies.empty_attestation)) "0xabc"
           (response 200 Bodies.empty_attestation)
           (Py.Dict [("data", Py.Dict [("attestation", Py.Dict [])])])
           (Py.Dict []));
    [ reflexivity | reflexivity | vm_compute; reflexivity | reflexivity ].
Defined.

(** Asked for [0xdef], a server that answers with the attestation [0xabc]
    gets that one returned. *)
Lemma fetch_attestation_ignores_requested_uid_witness :
  outcome_of (run (serve (response 200 Bodies.full)) (plain_fetch "0xdef")) =
    outcome_of (run (serve (response 200 Bodies.full)) (plain_fetch "0xabc"))
  /\ outcome_of (run (serve (response 200 Bodies.full)) (plain_fetch "0xdef")) =
     Return (Some {| uid := Py.Str "0xabc"; txid := Py.Str "0x111";
                     schema := Py.Str "0xschema"; attester := Py.Str "0xaa";
                     recipient := Py.Str "0xbb" |}).
Proof.
  split; [ | vm_compute; reflexivity ].
  apply (fetch_attestation_ignores_requested_uid PlainJson.decode
           (serve (response 200 Bodies.full))
           (serve (response 200 Bodies.full)) "0xdef" "0xabc").
  reflexivity.
Defined.

Lemma main_silent_on_exception_witness :
  run (serve (response 200 Bodies.no_id)) (plain_main ["--uid"; "0xabc"]) =
  ([Posted (fetch_request "0xabc")], Raise (KeyError "id")).
Proof.
  apply (main_silent_on_exception PlainJson.decode PlainCli.parse_args
           (serve (response 200 Bodies.no_id)) ["--uid"; "0xabc"]
           (mkNamespace "0xabc") (KeyError "id"));
    [ reflexivity | vm_compute; reflexivity ].
Defined.

Lemma script_exit_witness :
  outcome_of (run (serve (response 200 Bodies.full))
                (plain_script "__main__"
                   ["fetch_attestation.py"; "--uid"; "0xabc"]))
    = Raise (SystemExit 0)
  /\ outcome_of (run (serve (response 200 Bodies.null_attestation))
                   (plain_script "__main__"
                      ["fetch_attestation.py"; "--uid"; "0xdeadbeef"]))
     = Raise (SystemExit 2)
  /\ outcome_of (run unreachable
                   (plain_script "__main__"
                      ["fetch_attestation.py"; "--uid"; "0xabc"]))
     = Raise (RequestException "ConnectionError").
Proof.
  split; [ | split ].
  - exact (script_exit PlainJson.decode PlainCli.parse_args
             (serve (response 200 Bodies.full))
             ["fetch_attestation.py"; "--uid"; "0xabc"]
             (mkNamespace "0xabc") eq_refl).
  - exact (script_exit PlainJson.decode PlainCli.parse_args
             (serve (response 200 Bodies.null_attestation))
             ["fetch_attestation.py"; "--uid"; "0xdeadbeef"]
             (mkNamespace "0xdeadbeef") eq_refl).
  - exact (script_exit PlainJson.decode PlainCli.parse_args unreachable
             ["fetch_attestation.py"; "--uid"; "0xabc"]
             (mkNamespace "0xabc") eq_refl).
Defined.

Lemma script_imported_witness :
  run unreachable
    (plain_script "git_attest.fetch_attestation" ["pytest"]) = ([], Return tt).
Proof.
  apply (script_imported PlainJson.decode PlainCli.parse_args).
  discriminate.
Defined.
